(** * The session controller of the U.S. Government Acts helper (src/app.py)

    The program is a Streamlit script: the whole file is executed from top
    to bottom on every user interaction, and the only data that survives
    from one execution to the next is [st.session_state].  The development
    embeds one execution of the script as a function from the session
    state and the front end's widget values to the new session state, the
    page elements shown and the chat-completion requests sent.

    Python strings are modelled as [string] (UTF-8 bytes), and [.lower()]
    lower-cases the letters A-Z.  The script lower-cases a string only to
    search it for the keywords done, finish and ready, or (the project
    type, which is ASCII) to show it and to build a file name.  Of the
    non-ASCII code points only U+212A lower-cases to an ASCII letter by
    itself (k, in no keyword) and U+0130 to i followed by U+0307 (which
    no keyword has after an i), so the keyword search gives the same
    answer as on Python's code points. *)

From Stdlib Require Import String Ascii QArith.
From stdpp Require Import base option list strings numbers.

Local Open Scope string_scope.
Local Open Scope list_scope.

(** ** Python string operations used by the script *)

Module PyStr.

(** [c.lower()] on one character. *)
Definition lower_char (c : ascii) : ascii :=
  let n := nat_of_ascii c in
  if (65 <=? n)%nat && (n <=? 90)%nat then ascii_of_nat (n + 32) else c.

(** [s.lower()] *)
Fixpoint lower (s : string) : string :=
  match s with
  | EmptyString => EmptyString
  | String c s' => String (lower_char c) (lower s')
  end.

(** [sub in s] *)
Fixpoint contains (sub s : string) : bool :=
  String.prefix sub s ||
  match s with
  | EmptyString => false
  | String _ s' => contains sub s'
  end.

(** [any(word in s for word in words)] *)
Definition any_in (words : list string) (s : string) : bool :=
  existsb (fun word => contains word s) words.

(** [s.replace(old, new)] for a non-empty [old]: [skip] counts the
    characters of a match that are still to be dropped. *)
Fixpoint replace_from (old new s : string) (skip : nat) : string :=
  match s with
  | EmptyString => EmptyString
  | String c s' =>
      match skip with
      | S k => replace_from old new s' k
      | O =>
          if String.prefix old s
          then new +:+ replace_from old new s' (String.length old - 1)
          else String c (replace_from old new s' 0)
      end
  end.

Definition replace (old new s : string) : string := replace_from old new s 0.

(** [s.split(sep)] for a non-empty [sep]: [cur] is the piece being read. *)
Fixpoint split_from (sep s : string) (skip : nat) (cur : string) : list string :=
  match s with
  | EmptyString => [cur]
  | String c s' =>
      match skip with
      | S k => split_from sep s' k cur
      | O =>
          if String.prefix sep s
          then cur :: split_from sep s' (String.length sep - 1) EmptyString
          else split_from sep s' 0 (cur +:+ String c EmptyString)
      end
  end.

Definition split (sep s : string) : list string := split_from sep s 0 EmptyString.

(** Truth value of a string: [bool(s)]. *)
Definition nonempty (s : string) : bool :=
  match s with EmptyString => false | String _ _ => true end.

End PyStr.


(** ** Data model *)

(** A chat message: the dict with the keys role and content. *)
Record message := Message { role : string; content : string }.

#[global] Instance message_eq_dec : EqDecision message.
Proof. solve_decision. Defined.

(** [st.session_state]: the six attributes the script keeps.  [None] is a
    key that is not in the session state (never set, or deleted); a
    present key holds a value of the type the script stores under it:
    [act], [project_type], [system_prompt] and [final_project] hold a
    string or Python's None. *)
Record session_state := SessionState {
  act : option (option string);
  project_type : option (option string);
  chat_history : option (list message);
  system_prompt : option (option string);
  gathering_info : option bool;
  final_project : option (option string)
}.

(** The session state of a browser session that has run nothing yet. *)
Definition empty_session : session_state :=
  SessionState None None None None None None.

(** Truth value of a string-or-None, as [if x:] and [x and y] test it. *)
Definition truthy (v : option string) : bool :=
  match v with
  | Some s => PyStr.nonempty s
  | None => false
  end.

(** A request to [client.chat.completions.create].  Temperatures are the
    decimal literals of the source, kept as exact rationals. *)
Record request := Request {
  model : string;
  messages : list message;
  max_tokens : nat;
  temperature : Q
}.

(** What one execution puts on the page (the elements that carry data). *)
Inductive element :=
| Header (body : string)
| ChatMessage (name body : string)
| Markdown (body : string)
| Subheader
| Info
| Warning (body : string)
| DownloadButton (label data file_name mime : string)
| Button (label : string).

(** The widget whose use has started an execution, if any: a button (or
    the download button) clicked, or a text submitted in the chat input.
    An execution started by [st.rerun()], by a select box or by the first
    load has none. *)
Inductive trigger :=
| NoTrigger
| Click (label : string)
| Submit (text : string).

#[global] Instance trigger_eq_dec : EqDecision trigger.
Proof. solve_decision. Defined.

(** What the front end sends with a rerun request: the state of the two
    select boxes (the index of the chosen option) and the widget just
    used; with it, how the chat-completion service will answer a request
    made during this execution ([None]: the call raises). *)
Record frontend := Frontend {
  act_select : nat;
  type_select : nat;
  fired : trigger;
  completion : option string
}.

(** ** The script monad: session state, page and requests, with the ways an
    execution ends early *)

Inductive exception :=
| AttributeError
| KeyError
| IndexError
| StopIteration
| TypeError
| APIError.

Inductive outcome (A : Type) :=
| Return (a : A)
| Rerun
| Raise (e : exception).
Arguments Return {A} a.
Arguments Rerun {A}.
Arguments Raise {A} e.

Record world := World {
  ss : session_state;
  page : list element;
  requests : list request
}.

Definition script (A : Type) : Type := world -> world * outcome A.

#[global] Instance script_ret : MRet script := fun A a w => (w, Return a).

#[global] Instance script_bind : MBind script := fun A B k m w =>
  match m w with
  | (w', Return a) => k a w'
  | (w', Rerun) => (w', Rerun)
  | (w', Raise e) => (w', Raise e)
  end.

#[global] Instance script_fmap : FMap script := fun A B f m =>
  a ← m; mret (f a).

Definition raise {A} (e : exception) : script A := fun w => (w, Raise e).

(** [st.rerun()] *)
Definition rerun {A} : script A := fun w => (w, Rerun).

Definition when (b : bool) (m : script unit) : script unit :=
  if b then m else mret tt.

Definition modify (f : session_state -> session_state) : script unit :=
  fun w => (World (f (ss w)) (page w) (requests w), Return tt).

Definition show (e : element) : script unit :=
  fun w => (World (ss w) (page w ++ [e]) (requests w), Return tt).

(** Reading an attribute of the session state: AttributeError when the key
    is not there. *)
Definition get {A} (field : session_state -> option A) : script A :=
  fun w =>
    match field (ss w) with
    | Some v => (w, Return v)
    | None => (w, Raise AttributeError)
    end.

Definition has {A} (field : session_state -> option A) : script bool :=
  fun w => (w, Return (bool_decide (is_Some (field (ss w))))).

Definition set_act v := modify (fun s =>
  SessionState (Some v) (project_type s) (chat_history s) (system_prompt s) (gathering_info s) (final_project s)).
Definition set_project_type v := modify (fun s =>
  SessionState (act s) (Some v) (chat_history s) (system_prompt s) (gathering_info s) (final_project s)).
Definition set_chat_history v := modify (fun s =>
  SessionState (act s) (project_type s) (Some v) (system_prompt s) (gathering_info s) (final_project s)).
Definition set_system_prompt v := modify (fun s =>
  SessionState (act s) (project_type s) (chat_history s) (Some v) (gathering_info s) (final_project s)).
Definition set_gathering_info v := modify (fun s =>
  SessionState (act s) (project_type s) (chat_history s) (system_prompt s) (Some v) (final_project s)).
Definition set_final_project v := modify (fun s =>
  SessionState (act s) (project_type s) (chat_history s) (system_prompt s) (gathering_info s) (Some v)).

(** Python operations that can raise. *)

(** [l[i]] *)
Definition item {A} (l : list A) (i : nat) : script A :=
  match l !! i with
  | Some x => mret x
  | None => raise IndexError
  end.

(** [d[k]] on a dict with string keys; the key may be None. *)
Definition getitem (d : list (string * string)) (k : option string) : script string :=
  match List.filter (fun kv => bool_decide (Some (fst kv) = k)) d with
  | kv :: _ => mret (snd kv)
  | [] => raise KeyError
  end.

(** [next(g)] on the list of what the generator [g] yields. *)
Definition next {A} (yielded : list A) : script A :=
  match yielded with
  | x :: _ => mret x
  | [] => raise StopIteration
  end.

(** A method call or a concatenation on a value that must be a string. *)
Definition as_str (e : exception) (v : option string) : script string :=
  match v with
  | Some s => mret s
  | None => raise e
  end.

(** [str(v)], as an f-string formats a value. *)
Definition str (v : option string) : string :=
  match v with
  | Some s => s
  | None => "None"
  end.

(** ** Streamlit widgets *)

(** [st.selectbox(label, options)]: the chosen option.  The front end
    holds the index of the choice, 0 until the user changes it. *)
Definition selectbox (options : list string) (index : nat) : option string :=
  options !! index.

(** [st.button(label)] (and [st.download_button]): True only in the
    execution that the click on this very button has started. *)
Definition button (fe : frontend) (label : string) : script bool :=
  show (Button label);;
  mret (bool_decide (fired fe = Click label)).

Definition download_button (fe : frontend) (label data file_name mime : string) : script bool :=
  show (DownloadButton label data file_name mime);;
  mret (bool_decide (fired fe = Click label)).

(** [st.chat_input(...)]: the submitted text in the execution that the
    submission has started, None otherwise. *)
Definition chat_input (fe : frontend) : option string :=
  match fired fe with
  | Submit text => Some text
  | _ => None
  end.

(** [client.chat.completions.create(...)] followed by
    [response.choices[0].message.content]: the request goes out; the call
    returns the reply or raises. *)
Definition create (fe : frontend) (req : request) : script string :=
  fun w =>
    let w' := World (ss w) (page w) (requests w ++ [req]) in
    match completion fe with
    | Some reply => (w', Return reply)
    | None => (w', Raise APIError)
    end.

(** ** The script, block by block *)

Definition dq : string := String "034"%char EmptyString.
Definition nl : string := String "010"%char EmptyString.
Definition join (pieces : list string) : string :=
  fold_right String.append EmptyString pieces.

(** Lines 34-45: default values for the keys that are not there. *)
Definition init_session_state : script unit :=
  b ← has act; when (negb b) (set_act None);;
  b ← has project_type; when (negb b) (set_project_type None);;
  b ← has chat_history; when (negb b) (set_chat_history []);;
  b ← has system_prompt; when (negb b) (set_system_prompt None);;
  b ← has gathering_info; when (negb b) (set_gathering_info true);;
  b ← has final_project; when (negb b) (set_final_project None).

(** Lines 48-53. *)
Definition acts : list string := [
  "22nd Amendment (1951) - Limits presidents to two terms.";
  "25th Amendment (1967) - Handles what happens if the president can't do their job.";
  "Pendleton Act (1883) - Makes government jobs based on skills, not politics.";
  "Hatch Act (1939) - Stops government workers from doing politics on the job."
].

(** Line 62. *)
Definition project_types : list string := [
  "A paragraph describing a scenario";
  "A comic strip of a scenario";
  "A skit showing a scenario"
].

(** Lines 71-75. *)
Definition type_map : list (string * string) := [
  ("A paragraph describing a scenario", "paragraph");
  ("A comic strip of a scenario", "comic strip");
  ("A skit showing a scenario", "skit")
].

(** [[a.split(" - ")[i] for a in acts]] *)
Definition fields (i : nat) : script (list string) :=
  mapM (fun a => item (PyStr.split " - " a) i) acts.

(** The pieces of the f-string of lines 77-91 that do not depend on the
    selection. *)
Definition indent : string := "            ".

Definition paragraph_rule : string := "- For paragraphs: Aim for 4-6 sentences.".
Definition comic_strip_rule : string :=
  "- For comic strips: Create 3-4 panels with simple text descriptions (no images yet).".
Definition skit_rule : string :=
  "- For skits: Write a short script with 2-3 characters and simple dialogue.".
Definition question_rule : string :=
  "- Always ask one question at a time, with 2-4 simple options (e.g., A, B, C) for the student to choose from.".
Definition opening_question : string :=
  "Start by asking: 'What's a fun scenario you can think of for this act? Like, who is involved? (A) A president and vice president, (B) Government workers at a party, (C) Friends talking about elections, (D) Something else - tell me!'".

(** Lines 77-91: the f-string, with [proj_type], [st.session_state.act] and
    [act_desc] in its three holes. *)
Definition build_system_prompt (proj_type act act_desc : string) : string :=
  join [
    "You are a kind and patient AI teacher assistant for special needs students in a general education classroom. "; nl;
    indent; "Your goal is to help the student create a simple, fun "; proj_type;
      " about a scenario under the "; act; ": "; act_desc; "."; nl;
    indent; nl;
    indent; "Rules:"; nl;
    indent; "- Keep everything simple, positive, and short."; nl;
    indent; question_rule; nl;
    indent; "- Use the student's choices to build the project step by step."; nl;
    indent; paragraph_rule; nl;
    indent; comic_strip_rule; nl;
    indent; skit_rule; nl;
    indent; "- End by generating the full project once enough info is gathered."; nl;
    indent; "- If the student says "; dq; "done"; dq; " or similar, generate the final output."; nl;
    indent; "- Be encouraging: "; dq; "Great choice!"; dq; " or "; dq; "That's a cool idea!"; dq; nl;
    indent; nl;
    indent; opening_question
  ].

(** [x and y] on two session attributes: [y] is read only if [x] is true. *)
Definition and_then (x : script bool) (y : script bool) : script bool :=
  b ← x; if (b : bool) then y else mret false.

(** Lines 67-98: the Start Creating! button and its handler. *)
Definition start_creating (fe : frontend) (selected_type : option string) : script unit :=
  clicked ← button fe "Start Creating!";
  when clicked (
    ok ← and_then (truthy <$> get act) (truthy <$> get project_type);
    if (ok : bool) then
      names ← fields 0;
      descs ← fields 1;
      current ← get act;
      act_desc ← next (snd <$> List.filter (fun ad => bool_decide (Some (fst ad) = current)) (zip names descs));
      proj_type ← getitem type_map selected_type;
      current ← get act;
      set_system_prompt (Some (build_system_prompt proj_type (str current) act_desc));;
      set_gathering_info true;;
      set_chat_history [];;
      set_final_project None;;
      rerun
    else
      show (Warning "Please select both an act and project type first!")).

(** Lines 56-98: the sidebar. *)
Definition sidebar (fe : frontend) : script unit :=
  names ← fields 0;
  let selected_act := selectbox names (act_select fe) in
  when (truthy selected_act) (set_act selected_act);;
  let selected_type := selectbox project_types (type_select fe) in
  when (truthy selected_type) (set_project_type selected_type);;
  start_creating fe selected_type.

(** [for x in l: body] *)
Fixpoint for_ {A} (l : list A) (body : A -> script unit) : script unit :=
  match l with
  | [] => mret tt
  | x :: l' => body x;; for_ l' body
  end.

(** [st.session_state.chat_history.append(m)] *)
Definition append_chat (m : message) : script unit :=
  h ← get chat_history; set_chat_history (h ++ [m]).

(** [del st.session_state[key]]: KeyError when the key is not there. *)
Definition del {A} (field : session_state -> option A)
    (without : session_state -> session_state) : script unit :=
  b ← has field; if (b : bool) then modify without else raise KeyError.

Definition delitem (key : string) : script unit :=
  if String.eqb key "act" then
    del act (fun s => SessionState None (project_type s) (chat_history s) (system_prompt s) (gathering_info s) (final_project s))
  else if String.eqb key "project_type" then
    del project_type (fun s => SessionState (act s) None (chat_history s) (system_prompt s) (gathering_info s) (final_project s))
  else if String.eqb key "chat_history" then
    del chat_history (fun s => SessionState (act s) (project_type s) None (system_prompt s) (gathering_info s) (final_project s))
  else if String.eqb key "system_prompt" then
    del system_prompt (fun s => SessionState (act s) (project_type s) (chat_history s) None (gathering_info s) (final_project s))
  else if String.eqb key "gathering_info" then
    del gathering_info (fun s => SessionState (act s) (project_type s) (chat_history s) (system_prompt s) None (final_project s))
  else if String.eqb key "final_project" then
    del final_project (fun s => SessionState (act s) (project_type s) (chat_history s) (system_prompt s) (gathering_info s) None)
  else raise KeyError.

(** Lines 122 and 142. *)
Definition model_name : string := "grok-4-latest".

(** Line 132: the keyword check on the user's text. *)
Definition completion_words : list string := ["done"; "finish"; "ready"].

Definition says_done (prompt : string) : bool :=
  PyStr.any_in completion_words (PyStr.lower prompt).

(** Lines 110-135: chat mode. *)
Definition chat_mode (fe : frontend) : script unit :=
  match chat_input fe with
  | Some prompt =>
      when (PyStr.nonempty prompt) (
        append_chat (Message "user" prompt);;
        show (ChatMessage "user" prompt);;
        sp ← get system_prompt;
        sp ← as_str TypeError sp;
        h ← get chat_history;
        ai_reply ← create fe (Request model_name (Message "system" sp :: h) 300 (7 # 10));
        show (ChatMessage "assistant" ai_reply);;
        append_chat (Message "assistant" ai_reply);;
        when (says_done prompt) (
          set_gathering_info false;;
          rerun))
  | None => mret tt
  end.

(** Line 157: the name of the file offered for download. *)
Definition file_name_of (act project_type : string) : string :=
  act +:+ "_" +:+ PyStr.replace " " "_" (PyStr.lower project_type) +:+ ".txt".

Definition final_instruction : string :=
  nl +:+ nl +:+ "Now, using all the info from our chat, generate the final project.".

Definition reset_keys : list string :=
  ["act"; "project_type"; "chat_history"; "system_prompt"; "gathering_info"; "final_project"].

(** Lines 138-165: final project generation, with the download and the
    Create Another Project buttons that follow it in the same branch. *)
Definition final_generation (fe : frontend) : script unit :=
  sp ← get system_prompt;
  sp ← as_str TypeError sp;
  h ← get chat_history;
  final_output ← create fe (Request model_name (Message "system" (sp +:+ final_instruction) :: h) 800 (5 # 10));
  set_final_project (Some final_output);;
  show Subheader;;
  f ← get final_project;
  show (Markdown (str f));;
  a ← get act;
  p ← get project_type;
  p ← as_str AttributeError p;
  _ ← download_button fe "Download as Text File" (str f) (file_name_of (str a) p) "text/plain";
  clicked ← button fe "Create Another Project";
  when clicked (
    for_ reset_keys delitem;;
    rerun).

(** Lines 105-107: the chat history on the page. *)
Definition display_chat_history : script unit :=
  h ← get chat_history;
  for_ h (fun m => show (ChatMessage (role m) (content m))).

(** Lines 101-167: the main area. *)
Definition main_area (fe : frontend) : script unit :=
  started ← and_then (truthy <$> get act)
               (and_then (truthy <$> get project_type) (truthy <$> get system_prompt));
  if (started : bool) then
    p ← get project_type;
    p ← as_str AttributeError p;
    a ← get act;
    show (Header ("Creating a " +:+ PyStr.lower p +:+ " about the " +:+ str a));;
    display_chat_history;;
    g ← get gathering_info;
    if (g : bool) then chat_mode fe
    else
      f ← get final_project;
      if negb (truthy f) then final_generation fe else mret tt
  else
    show Info.

(** One execution of the script.  The title, the welcome text and the
    footer are the same in every execution and are left out; the client
    of lines 16-27 is cached and its key is taken to be configured. *)
Definition app (fe : frontend) : script unit :=
  init_session_state;;
  sidebar fe;;
  main_area fe.

Definition run (s : session_state) (fe : frontend) : world * outcome unit :=
  app fe (World s [] []).

Definition after (s : session_state) (fe : frontend) : session_state :=
  ss (fst (run s fe)).

(** A session: the front end's successive rerun requests, oldest first. *)
Definition session (fes : list frontend) : session_state :=
  fold_left after fes empty_session.

(** ** The phase of a session

    The script has no phase variable: it branches on the session
    attributes at lines 101, 110 and 138.  The phase of a session state is
    the branch the next execution takes, once lines 34-45 have given the
    missing keys their default values. *)

Inductive phase := Idle | Gathering | Finalizing | Complete.

Definition with_defaults (s : session_state) : session_state :=
  SessionState
    (Some (default None (act s)))
    (Some (default None (project_type s)))
    (Some (default [] (chat_history s)))
    (Some (default None (system_prompt s)))
    (Some (default true (gathering_info s)))
    (Some (default None (final_project s))).

Definition phase_of (s : session_state) : phase :=
  let a := default None (act s) in
  let p := default None (project_type s) in
  let sp := default None (system_prompt s) in
  let g := default true (gathering_info s) in
  let f := default None (final_project s) in
  if truthy a && truthy p && truthy sp then
    if g then Gathering
    else if negb (truthy f) then Finalizing
    else Complete
  else Idle.

(** The transcript and the final artifact a session state holds. *)
Definition transcript (s : session_state) : list message :=
  default [] (chat_history s).

Definition artifact (s : session_state) : option string :=
  default None (final_project s).

(** The session states a browser session can be in between two
    executions: whatever the front end sends, and however the
    chat-completion service answers. *)
Inductive reachable : session_state -> Prop :=
| reachable_empty : reachable empty_session
| reachable_after s fe : reachable s -> reachable (after s fe).

(** ** The catalog, as the script computes it from [acts] *)

Definition act_names : list string :=
  omap (fun a => PyStr.split " - " a !! 0) acts.

Definition act_descs : list string :=
  omap (fun a => PyStr.split " - " a !! 1) acts.

Definition selected_act (fe : frontend) : option string :=
  selectbox act_names (act_select fe).

Definition selected_type (fe : frontend) : option string :=
  selectbox project_types (type_select fe).

(** The front end sends the index of one of the options shown. *)
Definition valid_selection (fe : frontend) : Prop :=
  act_select fe < length act_names /\ type_select fe < length project_types.

(** ** One execution in closed form

    [summary] lists, branch by branch, what one execution leaves behind.
    It is a reading aid for the proofs below: [run_summary] proves it
    equal to [run], and the theorems are stated on [run]. *)

Definition choose (selected current : option string) : option string :=
  if truthy selected then selected else current.

Definition act_desc_of (current : option string) : option string :=
  head (snd <$> List.filter (fun ad => bool_decide (Some (fst ad) = current))
                            (zip act_names act_descs)).

Definition proj_type_of (selected : option string) : option string :=
  snd <$> head (List.filter (fun kv => bool_decide (Some (fst kv) = selected)) type_map).

Definition gathering_request (sp : string) (h : list message) : request :=
  Request model_name (Message "system" sp :: h) 300 (7 # 10).

Definition final_request (sp : string) (h : list message) : request :=
  Request model_name (Message "system" (sp +:+ final_instruction) :: h) 800 (5 # 10).

Definition shown (m : message) : element := ChatMessage (role m) (content m).

Definition summary_from (a p : option string) (h : list message) (sp : option string)
    (g : bool) (f : option string) (fe : frontend) : world * outcome unit :=
  let state h sp g f := SessionState (Some a) (Some p) (Some h) (Some sp) (Some g) (Some f) in
  let side := [Button "Start Creating!"] in
  if bool_decide (fired fe = Click "Start Creating!") then
    if truthy a && truthy p then
      match act_desc_of a with
      | None => (World (state h sp g f) side [], Raise StopIteration)
      | Some act_desc =>
          match proj_type_of (selected_type fe) with
          | None => (World (state h sp g f) side [], Raise KeyError)
          | Some proj_type =>
              (World (state [] (Some (build_system_prompt proj_type (str a) act_desc)) true None)
                     side [], Rerun)
          end
      end
    else
      (World (state h sp g f)
             (side ++ [Warning "Please select both an act and project type first!"; Info]) [],
       Return tt)
  else if truthy a && truthy p && truthy sp then
    let pg := side ++ Header ("Creating a " +:+ PyStr.lower (str p) +:+ " about the " +:+ str a)
                   :: map shown h in
    if g then
      match chat_input fe with
      | Some prompt =>
          if PyStr.nonempty prompt then
            let user := Message "user" prompt in
            let req := gathering_request (str sp) (h ++ [user]) in
            match completion fe with
            | None =>
                (World (state (h ++ [user]) sp g f) (pg ++ [shown user]) [req], Raise APIError)
            | Some ai_reply =>
                let assistant := Message "assistant" ai_reply in
                (World (state ((h ++ [user]) ++ [assistant]) sp (negb (says_done prompt)) f)
                       ((pg ++ [shown user]) ++ [shown assistant]) [req],
                 if says_done prompt then Rerun else Return tt)
            end
          else (World (state h sp g f) pg [], Return tt)
      | None => (World (state h sp g f) pg [], Return tt)
      end
    else if truthy f then (World (state h sp g f) pg [], Return tt)
    else
      let req := final_request (str sp) h in
      match completion fe with
      | None => (World (state h sp g f) pg [req], Raise APIError)
      | Some final_output =>
          let pg' := pg ++ [Subheader; Markdown final_output;
                            DownloadButton "Download as Text File" final_output
                              (file_name_of (str a) (str p)) "text/plain";
                            Button "Create Another Project"] in
          if bool_decide (fired fe = Click "Create Another Project")
          then (World empty_session pg' [req], Rerun)
          else (World (state h sp g (Some final_output)) pg' [req], Return tt)
      end
  else (World (state h sp g f) (side ++ [Info]) [], Return tt).

Definition summary (s : session_state) (fe : frontend) : world * outcome unit :=
  summary_from
    (choose (selected_act fe) (default None (act s)))
    (choose (selected_type fe) (default None (project_type s)))
    (default [] (chat_history s))
    (default None (system_prompt s))
    (default true (gathering_info s))
    (default None (final_project s))
    fe.

(** ** A session used as the running example

    The student opens the page with the Pendleton Act and the paragraph
    selected, presses Start Creating!, answers once, then answers again
    with the word done, and the final project is generated. *)

Definition pendleton_paragraph (t : trigger) (answer : option string) : frontend :=
  Frontend 2 0 t answer.

Definition open_page : frontend := pendleton_paragraph NoTrigger None.
Definition press_start : frontend := pendleton_paragraph (Click "Start Creating!") None.
Definition say (text ai_reply : string) : frontend :=
  pendleton_paragraph (Submit text) (Some ai_reply).
Definition say_unanswered (text : string) : frontend :=
  pendleton_paragraph (Submit text) None.
Definition rerun_answered (final_output : string) : frontend :=
  pendleton_paragraph NoTrigger (Some final_output).
Definition press_create_another : frontend :=
  pendleton_paragraph (Click "Create Another Project") (Some "Panel 1: again").

Definition just_started : session_state :=
  session [open_page; press_start; open_page].

Definition one_answer_given : session_state :=
  session [open_page; press_start; open_page; say "A" "Great choice!"].

Definition said_done : session_state :=
  session [open_page; press_start; open_page; say "A" "Great choice!";
           say "I choose A, done" "That's a cool idea!"].

Definition project_generated : session_state :=
  session [open_page; press_start; open_page; say "A" "Great choice!";
           say "I choose A, done" "That's a cool idea!"; rerun_answered "Panel 1: ..."].

(** The system prompt the Start Creating! handler stores for the selection
    the front end sends. *)
Definition prompt_for (fe : frontend) : string :=
  build_system_prompt (str (proj_type_of (selected_type fe)))
                      (str (selected_act fe))
                      (str (act_desc_of (selected_act fe))).

(** ** Vocabulary of the specification *)

(** [sub] occurs in [s] as a substring. *)
Definition occurs_in (sub s : string) : Prop :=
  exists pre post, s = pre +:+ sub +:+ post.

(** [word] occurs in [s] when letter case is ignored: some stretch of [s]
    is [word] up to the case of its letters. *)
Definition occurs_ignoring_case (word s : string) : Prop :=
  exists pre mid post, s = pre +:+ mid +:+ post /\ PyStr.lower mid = word.

(** The user's text contains done, finish or ready, case ignored. *)
Definition mentions_completion (text : string) : Prop :=
  exists word, In word completion_words /\ occurs_ignoring_case word text.

(** A transcript message: its role is user or assistant. *)
Definition user_or_assistant (m : message) : Prop :=
  role m = "user" \/ role m = "assistant".

(** The final artifact is set and non-empty. *)
Definition has_artifact (s : session_state) : Prop :=
  exists text, artifact s = Some text /\ text <> EmptyString.

(** What holds of every reachable session state, on the values the next
    execution will read. *)
Record consistent (s : session_state) : Prop := Consistent {
  gathering_without_artifact :
    default true (gathering_info s) = true -> artifact s = None;
  artifact_after_start :
    truthy (artifact s) = true -> truthy (default None (system_prompt s)) = true;
  prompt_after_selection :
    truthy (default None (system_prompt s)) = true ->
    truthy (default None (act s)) = true /\ truthy (default None (project_type s)) = true;
  transcript_roles : Forall user_or_assistant (transcript s)
}.


(** A character of the lower-cased, space-free part of a file name. *)
Definition plain_char (c : ascii) : Prop :=
  c <> " "%char /\ ~ (65 <= nat_of_ascii c <= 90)%nat.

Fixpoint string_forall (P : ascii -> Prop) (s : string) : Prop :=
  match s with
  | EmptyString => True
  | String c s' => P c /\ string_forall P s'
  end.

(** The session has been started: the test of line 101. *)
Definition started (s : session_state) : bool :=
  truthy (default None (act s)) && truthy (default None (project_type s))
  && truthy (default None (system_prompt s)).

(** The topic and the kind of project an execution works with: those of
    the session, replaced by what the select boxes hold. *)
Definition topic_at (s : session_state) (fe : frontend) : string :=
  str (choose (selected_act fe) (default None (act s))).

Definition kind_at (s : session_state) (fe : frontend) : string :=
  str (choose (selected_type fe) (default None (project_type s))).

(** Lower-cased, with every space replaced by an underscore. *)
Definition normalised (text : string) : string :=
  PyStr.replace " " "_" (PyStr.lower text).

(** C6, as the specification states it: the name of the file offered is
    made of the topic and of the kind of project, both lower-cased and with
    their spaces replaced. *)
Definition file_name_normalises_both : Prop :=
  forall s fe label data name mime,
    reachable s ->
    In (DownloadButton label data name mime) (page (fst (run s fe))) ->
    name = normalised (topic_at s fe) +:+ "_" +:+ normalised (kind_at s fe) +:+ ".txt".

(** C4, as the specification states it: an execution takes a message out
    of the transcript only on the way from Idle to Gathering. *)
Definition transcript_cleared_only_from_idle : Prop :=
  forall s fe,
    reachable s -> ~ transcript s `prefix_of` transcript (after s fe) ->
    phase_of s = Idle /\ phase_of (after s fe) = Gathering.

(** ** Vocabulary of the further properties *)

(** A transcript made of turns, oldest first: each turn is a user message,
    followed by the assistant's reply when the service has answered. *)
Inductive dialogue : list message -> Prop :=
| dialogue_nil : dialogue []
| dialogue_unanswered h text :
    dialogue h -> dialogue (h ++ [Message "user" text])
| dialogue_answered h text ai_reply :
    dialogue h ->
    dialogue (h ++ [Message "user" text; Message "assistant" ai_reply]).

(** The select boxes moved to the Hatch Act and the skit. *)
Definition hatch_skit (t : trigger) (answer : option string) : frontend :=
  Frontend 3 2 t answer.

(** * Proofs *)

(** ** The string operations and the catalog on examples *)

Example split_act :
  PyStr.split " - " "Hatch Act (1939) - Stops government workers from doing politics on the job."
  = ["Hatch Act (1939)"; "Stops government workers from doing politics on the job."].
Proof. reflexivity. Qed.

Example replace_spaces :
  PyStr.replace " " "_" "a comic strip of a scenario" = "a_comic_strip_of_a_scenario".
Proof. reflexivity. Qed.

Example lower_mixed : PyStr.lower "I'm ALREADY here" = "i'm already here".
Proof. reflexivity. Qed.

Example act_names_are :
  act_names = ["22nd Amendment (1951)"; "25th Amendment (1967)";
               "Pendleton Act (1883)"; "Hatch Act (1939)"].
Proof. reflexivity. Qed.

Example act_descs_are :
  act_descs = ["Limits presidents to two terms.";
               "Handles what happens if the president can't do their job.";
               "Makes government jobs based on skills, not politics.";
               "Stops government workers from doing politics on the job."].
Proof. reflexivity. Qed.

(** ** Substrings and letter case *)

Section Substrings.

Implicit Types (s sub pre mid post : string) (c : ascii).

Lemma append_cons c s1 s2 : String c s1 +:+ s2 = String c (s1 +:+ s2).
Proof. reflexivity. Qed.

Lemma append_empty s : EmptyString +:+ s = s.
Proof. reflexivity. Qed.

Lemma prefix_occurs sub s :
  String.prefix sub s = true <-> exists post, s = sub +:+ post.
Proof.
  revert s. induction sub as [|c sub IH]; intros s.
  - split; [intros _; by exists s | by destruct s].
  - setoid_rewrite append_cons.
    destruct s as [|c' s]; simpl.
    + split; [done | by intros [post ?]].
    + destruct (Ascii.ascii_dec c c') as [->|Hne].
      * rewrite IH. split; intros [post Hpost]; exists post; congruence.
      * split; [done | intros [post Hpost]; congruence].
Qed.

Lemma contains_occurs sub s :
  PyStr.contains sub s = true <-> occurs_in sub s.
Proof.
  unfold occurs_in. induction s as [|c s IH].
  - change (PyStr.contains sub EmptyString) with (String.prefix sub EmptyString || false).
    rewrite orb_false_r, prefix_occurs. split.
    + intros [post ->]. by exists EmptyString, post.
    + intros [[|c pre] [post Hs]]; [by exists post | discriminate].
  - change (PyStr.contains sub (String c s))
      with (String.prefix sub (String c s) || PyStr.contains sub s).
    rewrite orb_true_iff, prefix_occurs, IH. split.
    + intros [[post ->] | (pre & post & ->)].
      * by exists EmptyString, post.
      * by exists (String c pre), post.
    + intros [[|c' pre] [post Hs]].
      * left. by exists post.
      * right. exists pre, post. rewrite append_cons in Hs. congruence.
Qed.

Lemma lower_app s1 s2 :
  PyStr.lower (s1 +:+ s2) = PyStr.lower s1 +:+ PyStr.lower s2.
Proof.
  induction s1 as [|c s1 IH]; [done |].
  rewrite append_cons. simpl. by rewrite IH.
Qed.

Lemma lower_app_inv s x y :
  PyStr.lower s = x +:+ y ->
  exists a b, s = a +:+ b /\ PyStr.lower a = x /\ PyStr.lower b = y.
Proof.
  revert s. induction x as [|c x IH]; intros s Hs.
  - by exists EmptyString, s.
  - destruct s as [|c' s]; [discriminate |].
    rewrite append_cons in Hs. simpl in Hs. injection Hs as Hc Hs.
    destruct (IH s Hs) as (a & b & -> & Ha & Hb).
    exists (String c' a), b. simpl. by rewrite Hc, Ha.
Qed.

(** Python's [word in s.lower()] is the search that ignores case. *)
Lemma contains_lower word s :
  PyStr.contains word (PyStr.lower s) = true <-> occurs_ignoring_case word s.
Proof.
  rewrite contains_occurs. unfold occurs_in, occurs_ignoring_case. split.
  - intros (x & y & Hs).
    destruct (lower_app_inv _ _ _ Hs) as (pre & rest & -> & Hpre & Hrest).
    destruct (lower_app_inv _ _ _ Hrest) as (mid & post & -> & Hmid & Hpost).
    by exists pre, mid, post.
  - intros (pre & mid & post & -> & <-).
    exists (PyStr.lower pre), (PyStr.lower post). by rewrite !lower_app.
Qed.

Lemma says_done_mentions text :
  says_done text = true <-> mentions_completion text.
Proof.
  unfold says_done, PyStr.any_in, mentions_completion.
  rewrite existsb_exists. split.
  - intros (word & Hin & Hw). exists word. by rewrite <- contains_lower.
  - intros (word & Hin & Hw). exists word. by rewrite contains_lower.
Qed.

Lemma lower_char_plain c : ~ (65 <= nat_of_ascii (PyStr.lower_char c) <= 90)%nat.
Proof.
  unfold PyStr.lower_char.
  destruct ((65 <=? nat_of_ascii c)%nat && (nat_of_ascii c <=? 90)%nat) eqn:Hc.
  - apply andb_true_iff in Hc as [H1%Nat.leb_le H2%Nat.leb_le].
    rewrite nat_ascii_embedding by lia. lia.
  - apply andb_false_iff in Hc as [H%Nat.leb_gt | H%Nat.leb_gt]; lia.
Qed.

Lemma lower_no_capital s :
  string_forall (fun c => ~ (65 <= nat_of_ascii c <= 90)%nat) (PyStr.lower s).
Proof. induction s as [|c s IH]; simpl; [done | split; [apply lower_char_plain | done]]. Qed.

(** Replacing every space by an underscore leaves no space, and no
    capital letter where there was none. *)
Lemma replace_space_plain s :
  string_forall (fun c => ~ (65 <= nat_of_ascii c <= 90)%nat) s ->
  string_forall plain_char (PyStr.replace " " "_" s).
Proof.
  unfold PyStr.replace. induction s as [|c s IH]; [done |].
  intros [Hc Hs]. specialize (IH Hs).
  change (PyStr.replace_from " " "_" (String c s) 0)
    with (if String.prefix " " (String c s)
          then "_" +:+ PyStr.replace_from " " "_" s 0
          else String c (PyStr.replace_from " " "_" s 0)).
  destruct (String.prefix " " (String c s)) eqn:Hp.
  - rewrite append_cons, append_empty. split; [|done]. split; [done |].
    change (nat_of_ascii "_") with 95. lia.
  - split; [|done]. split; [|done].
    intros ->. simpl in Hp. by destruct s.
Qed.

End Substrings.

(** ** Executing the script symbolically *)

(** The monad's operations are unfolded and the result simplified, step
    after step; the string operations and the blocks with a lemma of their
    own stay folded. *)
Arguments says_done : simpl never.
Arguments PyStr.lower : simpl never.
Arguments String.append : simpl never.
Arguments build_system_prompt : simpl never.
Arguments file_name_of : simpl never.

Ltac exec :=
  repeat (progress (
    unfold mbind, mret, fmap, script_bind, script_ret, script_fmap,
      raise, rerun, when, modify, show, get, has, and_then, as_str, button,
      download_button, create, append_chat, del,
      set_act, set_project_type, set_chat_history, set_system_prompt,
      set_gathering_info, set_final_project;
    cbn)).

(** Lines 34-45 leave every key present. *)
Lemma init_session_state_spec s p r :
  init_session_state (World s p r) = (World (with_defaults s) p r, Return tt).
Proof.
  destruct s as [[a|] [pt|] [h|] [sp|] [g|] [f|]]; reflexivity.
Qed.

(** The two list comprehensions over [acts] raise nothing. *)
Lemma fields_0 w : fields 0 w = (w, Return act_names).
Proof. reflexivity. Qed.

Lemma fields_1 w : fields 1 w = (w, Return act_descs).
Proof. reflexivity. Qed.

Lemma for_show {A} (l : list A) (e : A -> element) s p r :
  for_ l (fun x => show (e x)) (World s p r) = (World s (p ++ map e l) r, Return tt).
Proof.
  revert p. induction l as [|x l IH]; intros p.
  - exec. by rewrite app_nil_r.
  - exec. etrans; [apply IH|]. by rewrite <- app_assoc.
Qed.

Lemma display_chat_history_spec s h p r :
  chat_history s = Some h ->
  display_chat_history (World s p r) = (World s (p ++ map shown h) r, Return tt).
Proof.
  intros H. unfold display_chat_history, mbind, script_bind, get. cbn. rewrite H.
  apply for_show.
Qed.

Arguments init_session_state : simpl never.
Arguments fields : simpl never.
Arguments display_chat_history : simpl never.
Arguments act_names : simpl never.
Arguments act_descs : simpl never.
Arguments selected_act : simpl never.
Arguments selected_type : simpl never.
Arguments start_creating : simpl never.
Arguments main_area : simpl never.

(** Lines 67-167 on a session state with all its keys: every path through
    the button handler, chat mode and the final generation. *)
Lemma start_and_main_summary fe a p h sp g f :
  (start_creating fe (selected_type fe) ≫= fun _ => main_area fe)
    (World (SessionState (Some a) (Some p) (Some h) (Some sp) (Some g) (Some f)) [] [])
  = summary_from a p h sp g f fe.
Proof.
  unfold summary_from, start_creating. exec.
  destruct (bool_decide (fired fe = Click "Start Creating!")) eqn:Hstart; exec.
  - destruct a as [[|c a]|], p as [[|c' p]|]; exec;
      try (unfold main_area; exec; reflexivity).
    rewrite fields_0, fields_1. exec.
    unfold act_desc_of, proj_type_of, next, getitem.
    generalize (List.filter (fun ad : string * string => bool_decide (Some ad.1 = Some (String c a)))
                  (zip act_names act_descs)) as found.
    generalize (List.filter (fun kv : string * string => bool_decide (Some kv.1 = selected_type fe))
                  type_map) as proj.
    intros [|kv proj] [|ad found]; exec; reflexivity.
  - unfold main_area. exec.
    destruct a as [[|c a]|], p as [[|c' p]|], sp as [[|c2 sp]|]; exec; try reflexivity.
    erewrite display_chat_history_spec by reflexivity. exec.
    destruct g; exec.
    + unfold chat_mode.
      destruct (chat_input fe) as [[|c3 prompt]|]; exec; try reflexivity.
      destruct (completion fe) as [ai_reply|]; exec; try reflexivity.
      destruct (says_done (String c3 prompt)); exec; reflexivity.
    + destruct f as [[|c4 f]|]; exec; try reflexivity.
      all: unfold final_generation; exec.
      all: destruct (completion fe) as [final_output|]; exec; try reflexivity.
      all: destruct (bool_decide (fired fe = Click "Create Another Project")); exec.
      all: rewrite <- !app_assoc; reflexivity.
Qed.

(** One execution is what [summary] says. *)
Lemma run_summary s fe : run s fe = summary s fe.
Proof.
  unfold run, app. exec.
  rewrite init_session_state_spec.
  unfold sidebar. exec. rewrite fields_0.
  fold (selected_act fe). fold (selected_type fe).
  unfold summary, with_defaults, choose.
  destruct (truthy (selected_act fe)), (truthy (selected_type fe)); exec;
    apply start_and_main_summary.
Qed.

(** ** Reachable session states are consistent *)

Lemma after_summary s fe : after s fe = ss (fst (summary s fe)).
Proof. unfold after. by rewrite run_summary. Qed.

Lemma build_system_prompt_nonempty proj_type a act_desc :
  truthy (Some (build_system_prompt proj_type a act_desc)) = true.
Proof. reflexivity. Qed.

Lemma choose_truthy selected current :
  truthy current = true -> truthy (choose selected current) = true.
Proof. unfold choose. by destruct (truthy selected) eqn:H. Qed.

Lemma consistent_empty : consistent empty_session.
Proof. by split. Qed.

Lemma consistent_after s fe : consistent s -> consistent (after s fe).
Proof.
  intros [Hg Hf Hsp Hh]. rewrite after_summary.
  unfold summary, summary_from, artifact, transcript in *.
  repeat case_match; split; cbn; intros; try done.
  all: repeat match goal with
         | H : _ && _ = true |- _ => apply andb_true_iff in H as [? ?]
         end.
  all: try by auto.
  all: try (split; apply choose_truthy; by apply Hsp).
  all: rewrite ?Forall_app; repeat split; auto.
  all: apply Forall_singleton; by (left + right).
Qed.

Lemma reachable_consistent s : reachable s -> consistent s.
Proof.
  induction 1 as [|s fe _ IH]; [apply consistent_empty | by apply consistent_after].
Qed.

Lemma session_reachable fes : reachable (session fes).
Proof.
  unfold session. generalize reachable_empty. generalize empty_session.
  induction fes as [|fe fes IH]; intros s Hs; [done |].
  apply IH. by constructor.
Qed.

(** ** What a phase says about the attributes *)

Lemma phase_of_started s :
  phase_of s =
    if started s then
      if default true (gathering_info s) then Gathering
      else if negb (truthy (artifact s)) then Finalizing else Complete
    else Idle.
Proof. reflexivity. Qed.

Lemma phase_gathering s :
  phase_of s = Gathering <-> started s = true /\ default true (gathering_info s) = true.
Proof.
  rewrite phase_of_started.
  destruct (started s), (default true (gathering_info s)), (truthy (artifact s));
    simpl; intuition congruence.
Qed.

Lemma phase_finalizing s :
  phase_of s = Finalizing <->
  started s = true /\ default true (gathering_info s) = false /\ truthy (artifact s) = false.
Proof.
  rewrite phase_of_started.
  destruct (started s), (default true (gathering_info s)), (truthy (artifact s));
    simpl; intuition congruence.
Qed.

Lemma phase_complete s :
  phase_of s = Complete <->
  started s = true /\ default true (gathering_info s) = false /\ truthy (artifact s) = true.
Proof.
  rewrite phase_of_started.
  destruct (started s), (default true (gathering_info s)), (truthy (artifact s));
    simpl; intuition congruence.
Qed.

(** The selection made in the sidebar keeps a started session started. *)
Lemma started_after_selection s fe :
  started s = true ->
  truthy (choose (selected_act fe) (default None (act s)))
  && truthy (choose (selected_type fe) (default None (project_type s)))
  && truthy (default None (system_prompt s)) = true.
Proof.
  unfold started. rewrite !andb_true_iff. intros [[Ha Hp] Hsp].
  by rewrite !choose_truthy.
Qed.

Lemma says_done_nonempty text : says_done text = true -> PyStr.nonempty text = true.
Proof. by destruct text. Qed.

Lemma truthy_has_artifact s : truthy (artifact s) = true <-> has_artifact s.
Proof.
  unfold has_artifact. destruct (artifact s) as [[|c text]|]; simpl; split; try done.
  - by intros (text & [= <-] & ?).
  - intros _. by eexists.
  - by intros (text & ? & ?).
Qed.

(** ** The turns of a session, one lemma per branch *)

Section Turns.

Variables (s : session_state) (fe : frontend).

Let a := choose (selected_act fe) (default None (act s)).
Let p := choose (selected_type fe) (default None (project_type s)).
Let sp := default None (system_prompt s).
Let pg := Button "Start Creating!"
          :: Header ("Creating a " +:+ PyStr.lower (str p) +:+ " about the " +:+ str a)
          :: map shown (transcript s).

Lemma not_start_click text :
  fired fe = Submit text -> bool_decide (fired fe = Click "Start Creating!") = false.
Proof. intros ->. by apply bool_decide_eq_false. Qed.

(** A chat turn that the service answers. *)
Lemma gathering_turn_ok text ai_reply :
  phase_of s = Gathering -> fired fe = Submit text -> PyStr.nonempty text = true ->
  completion fe = Some ai_reply ->
  run s fe =
    (World (SessionState (Some a) (Some p)
              (Some ((transcript s ++ [Message "user" text]) ++ [Message "assistant" ai_reply]))
              (Some sp) (Some (negb (says_done text))) (Some (artifact s)))
           ((pg ++ [ChatMessage "user" text]) ++ [ChatMessage "assistant" ai_reply])
           [gathering_request (str sp) (transcript s ++ [Message "user" text])],
     if says_done text then Rerun else Return tt).
Proof.
  intros [Hs Hg]%phase_gathering Hf Ht Hc.
  rewrite run_summary. unfold summary, summary_from.
  rewrite (not_start_click _ Hf), (started_after_selection _ _ Hs), Hg.
  unfold chat_input. by rewrite Hf, Ht, Hc.
Qed.

(** A chat turn on which the call to the service raises. *)
Lemma gathering_turn_fail text :
  phase_of s = Gathering -> fired fe = Submit text -> PyStr.nonempty text = true ->
  completion fe = None ->
  run s fe =
    (World (SessionState (Some a) (Some p) (Some (transcript s ++ [Message "user" text]))
              (Some sp) (Some true) (Some (artifact s)))
           (pg ++ [ChatMessage "user" text])
           [gathering_request (str sp) (transcript s ++ [Message "user" text])],
     Raise APIError).
Proof.
  intros [Hs Hg]%phase_gathering Hf Ht Hc.
  rewrite run_summary. unfold summary, summary_from.
  rewrite (not_start_click _ Hf), (started_after_selection _ _ Hs), Hg.
  unfold chat_input. by rewrite Hf, Ht, Hc.
Qed.

(** An execution in chat mode without a text: nothing changes. *)
Lemma gathering_idle_turn :
  phase_of s = Gathering -> bool_decide (fired fe = Click "Start Creating!") = false ->
  (forall text, fired fe = Submit text -> PyStr.nonempty text = false) ->
  run s fe =
    (World (SessionState (Some a) (Some p) (Some (transcript s)) (Some sp) (Some true)
              (Some (artifact s))) pg [],
     Return tt).
Proof.
  intros [Hs Hg]%phase_gathering Hf Ht.
  rewrite run_summary. unfold summary, summary_from.
  rewrite Hf, (started_after_selection _ _ Hs), Hg.
  unfold chat_input. destruct (fired fe) as [|label|text]; try done.
  by rewrite (Ht text).
Qed.

(** The final generation, answered by the service. *)
Lemma final_turn_ok final_output :
  phase_of s = Finalizing -> bool_decide (fired fe = Click "Start Creating!") = false ->
  completion fe = Some final_output ->
  run s fe =
    (World (if bool_decide (fired fe = Click "Create Another Project")
            then empty_session
            else SessionState (Some a) (Some p) (Some (transcript s)) (Some sp) (Some false)
                   (Some (Some final_output)))
           (pg ++ [Subheader; Markdown final_output;
                   DownloadButton "Download as Text File" final_output
                     (file_name_of (str a) (str p)) "text/plain";
                   Button "Create Another Project"])
           [final_request (str sp) (transcript s)],
     if bool_decide (fired fe = Click "Create Another Project") then Rerun else Return tt).
Proof.
  intros (Hs & Hg & Hf)%phase_finalizing Hstart Hc.
  rewrite run_summary. unfold summary, summary_from.
  rewrite Hstart, (started_after_selection _ _ Hs), Hg.
  unfold artifact in Hf. rewrite Hf, Hc.
  by destruct (bool_decide (fired fe = Click "Create Another Project")).
Qed.


(** An execution once the artifact is there: neither branch of lines
    110-165 is entered. *)
Lemma complete_turn :
  phase_of s = Complete -> bool_decide (fired fe = Click "Start Creating!") = false ->
  run s fe =
    (World (SessionState (Some a) (Some p) (Some (transcript s)) (Some sp) (Some false)
              (Some (artifact s))) pg [],
     Return tt).
Proof.
  intros (Hs & Hg & Hf)%phase_complete Hstart.
  rewrite run_summary. unfold summary, summary_from.
  rewrite Hstart, (started_after_selection _ _ Hs), Hg.
  unfold artifact in Hf. by rewrite Hf.
Qed.

End Turns.

(** The index of an option shown: the cases of a select box. *)
Lemma valid_selection_cases fe :
  valid_selection fe ->
  (act_select fe = 0 \/ act_select fe = 1 \/ act_select fe = 2 \/ act_select fe = 3)
  /\ (type_select fe = 0 \/ type_select fe = 1 \/ type_select fe = 2).
Proof.
  unfold valid_selection.
  change (length act_names) with 4. change (length project_types) with 3. lia.
Qed.

(** The Start Creating! handler, for a selection among the options. *)
Lemma start_turn s fe :
  valid_selection fe -> fired fe = Click "Start Creating!" ->
  run s fe =
    (World (SessionState (Some (selected_act fe)) (Some (selected_type fe)) (Some [])
              (Some (Some (prompt_for fe))) (Some true) (Some None))
           [Button "Start Creating!"] [],
     Rerun).
Proof.
  intros Hv%valid_selection_cases Hf.
  rewrite run_summary. unfold summary, summary_from, prompt_for, selected_act, selected_type.
  rewrite Hf. destruct Hv as [Hi Hj].
  destruct Hi as [-> | [-> | [-> | ->]]], Hj as [-> | [-> | ->]]; reflexivity.
Qed.

Lemma phase_of_state a p h sp g f :
  phase_of (SessionState (Some a) (Some p) h (Some sp) (Some g) (Some f)) =
    if truthy a && truthy p && truthy sp then
      if g then Gathering else if negb (truthy f) then Finalizing else Complete
    else Idle.
Proof. reflexivity. Qed.

(** * The claims *)



(** The artifact after an execution: kept, dropped, or the answer of the
    service to the final generation. *)
Lemma artifact_after s fe :
  artifact (after s fe) = artifact s \/ artifact (after s fe) = None \/
  artifact (after s fe) = completion fe.
Proof.
  rewrite after_summary. unfold summary, summary_from, artifact.
  repeat case_match; cbn; auto.
Qed.

Lemma nonempty_text text : text <> EmptyString -> PyStr.nonempty text = true.
Proof. by destruct text. Qed.

(** C2.  In every reachable session state the final artifact is set and
    non-empty exactly when the phase is Complete; and when the service
    answers the final generation with the empty string, the session does
    not become Complete. *)
Theorem artifact_iff_complete s :
  reachable s ->
  (has_artifact s <-> phase_of s = Complete) /\
  (forall fe, phase_of s = Finalizing -> completion fe = Some EmptyString ->
              phase_of (after s fe) <> Complete).
Proof.
  intros Hr. destruct (reachable_consistent _ Hr) as [Hg Hf Hsp _]. split.
  - rewrite <- truthy_has_artifact, phase_complete. split; [|tauto].
    intros Ht. specialize (Hf Ht). destruct (Hsp Hf) as [Ha Hp].
    unfold started. rewrite Ha, Hp, Hf. repeat split; [|done].
    destruct (default true (gathering_info s)); [|done].
    rewrite Hg in Ht; done.
  - intros fe (_ & _ & Hno)%phase_finalizing Hc [_ [_ Ht]]%phase_complete.
    destruct (artifact_after s fe) as [He | [He | He]]; rewrite He in Ht.
    + congruence.
    + done.
    + by rewrite Hc in Ht.
Qed.

Lemma artifact_iff_complete_witness : has_artifact project_generated.
Proof.
  apply (proj1 (artifact_iff_complete project_generated (session_reachable _))).
  vm_compute. reflexivity.
Defined.

(** C3.  When the call to the service raises during a chat turn, the
    execution ends with that exception, the session stays in Gathering, the
    final artifact stays unset, and the transcript has grown by the user's
    message alone: no assistant message, and the user's message is not
    taken back. *)
Theorem gateway_failure_in_gathering s fe text :
  reachable s -> phase_of s = Gathering ->
  fired fe = Submit text -> text <> EmptyString -> completion fe = None ->
  snd (run s fe) = Raise APIError /\
  phase_of (after s fe) = Gathering /\
  artifact (after s fe) = None /\
  transcript (after s fe) = transcript s ++ [Message "user" text].
Proof.
  intros Hr Hph Hf Ht%nonempty_text Hc.
  pose proof Hph as [Hs Hg]%phase_gathering.
  pose proof (gathering_without_artifact _ (reachable_consistent _ Hr) Hg) as Hart.
  unfold after. rewrite (gathering_turn_fail s fe text Hph Hf Ht Hc).
  cbn [fst snd ss]. repeat split; [|done].
  by rewrite phase_of_state, (started_after_selection _ fe Hs).
Qed.

Lemma gateway_failure_in_gathering_witness :
  transcript (after just_started (say_unanswered "A")) = [Message "user" "A"].
Proof.
  refine (proj2 (proj2 (proj2 (gateway_failure_in_gathering just_started
            (say_unanswered "A") "A" (session_reachable _) _ _ _ _)))).
  - vm_compute. reflexivity.
  - reflexivity.
  - discriminate.
  - reflexivity.
Defined.

(** The transcript an execution leaves: the old one with messages added,
    unless the Start Creating! handler or the Create Another Project
    handler has run. *)
Lemma transcript_after s fe :
  transcript s `prefix_of` transcript (after s fe)
  \/ (fired fe = Click "Start Creating!" /\ snd (run s fe) = Rerun)
  \/ (fired fe = Click "Create Another Project" /\ after s fe = empty_session).
Proof.
  unfold after. rewrite run_summary. unfold summary, summary_from, transcript.
  repeat case_match; cbn; try (by left).
  - right; left. split; [|done]. by eapply bool_decide_eq_true_1.
  - left. eexists. by rewrite <- app_assoc.
  - left. eexists. by rewrite <- app_assoc.
  - left. by eexists.
  - right; right. split; [|done]. by eapply bool_decide_eq_true_1.
Qed.


(** Pressing Start Creating! in the middle of the conversation empties a
    transcript of two messages, from Gathering. *)
Lemma transcript_cleared_from_gathering : ~ transcript_cleared_only_from_idle.
Proof.
  intros Hclaim.
  destruct (Hclaim one_answer_given press_start (session_reachable _)) as [Hidle _].
  - intros [k Hk]. vm_compute in Hk. discriminate.
  - vm_compute in Hidle. discriminate.
Qed.

(** C4, amended.  The Start Creating! handler, in whatever phase the button
    is pressed, stores the system prompt built for the selection, empties
    the transcript, clears the final artifact and puts the session in
    Gathering; an execution in which neither Start Creating! nor Create
    Another Project is pressed only adds messages to the transcript. *)
Theorem start_creating_resets s fe :
  valid_selection fe ->
  (fired fe = Click "Start Creating!" ->
     system_prompt (after s fe) = Some (Some (prompt_for fe)) /\
     transcript (after s fe) = [] /\
     artifact (after s fe) = None /\
     phase_of (after s fe) = Gathering) /\
  (fired fe <> Click "Start Creating!" -> fired fe <> Click "Create Another Project" ->
     transcript s `prefix_of` transcript (after s fe)).
Proof.
  intros Hv. split.
  - intros Hf. unfold after. rewrite (start_turn s fe Hv Hf). cbn [fst ss].
    repeat split.
    apply valid_selection_cases in Hv as [Hi Hj].
    unfold selected_act, selected_type.
    destruct Hi as [-> | [-> | [-> | ->]]], Hj as [-> | [-> | ->]]; reflexivity.
  - intros Hstart Hreset.
    destruct (transcript_after s fe) as [H | [[H _] | [H _]]]; done.
Qed.

Lemma start_creating_resets_witness :
  transcript (after one_answer_given press_start) = [] /\
  phase_of (after one_answer_given press_start) = Gathering.
Proof.
  assert (Hv : valid_selection press_start) by (vm_compute; lia).
  destruct (proj1 (start_creating_resets one_answer_given press_start Hv) eq_refl)
    as (_ & Ht & _ & Hp).
  by split.
Defined.

(** Once the artifact is there, pressing Create Another Project changes
    nothing: the button's handler sits in the branch of line 138, which is
    entered only while there is no artifact. *)
Lemma create_another_ignored s fe :
  phase_of s = Complete -> fired fe = Click "Create Another Project" ->
  snd (run s fe) = Return tt /\
  requests (fst (run s fe)) = [] /\
  transcript (after s fe) = transcript s /\
  system_prompt (after s fe) = Some (default None (system_prompt s)) /\
  artifact (after s fe) = artifact s /\
  phase_of (after s fe) = Complete.
Proof.
  intros Hph Hf. pose proof Hph as (Hs & Hg & Ha)%phase_complete.
  unfold after. rewrite complete_turn; [|done|].
  - cbn [fst snd ss requests]. repeat split.
    by rewrite phase_of_state, (started_after_selection _ fe Hs), Ha.
  - rewrite Hf. by apply bool_decide_eq_false.
Qed.

(** C5, on the code: in the example session, with the project generated
    and the phase Complete, the execution that the click on Create Another
    Project starts leaves the whole session state as it was, and the phase
    Complete. *)
Theorem create_another_after_completion :
  phase_of project_generated = Complete /\
  fired press_create_another = Click "Create Another Project" /\
  run project_generated press_create_another
  = (World project_generated
       [Button "Start Creating!";
        Header "Creating a a paragraph describing a scenario about the Pendleton Act (1883)";
        ChatMessage "user" "A"; ChatMessage "assistant" "Great choice!";
        ChatMessage "user" "I choose A, done"; ChatMessage "assistant" "That's a cool idea!"]
       [],
     Return tt) /\
  phase_of (after project_generated press_create_another) = Complete /\
  artifact (after project_generated press_create_another) = Some "Panel 1: ...".
Proof. vm_compute. repeat split. Qed.

(** The handler itself, when it runs: all six keys are deleted. *)
Lemma create_another_handler s fe final_output :
  phase_of s = Finalizing -> fired fe = Click "Create Another Project" ->
  completion fe = Some final_output ->
  after s fe = empty_session /\ snd (run s fe) = Rerun /\ phase_of (after s fe) = Idle.
Proof.
  intros Hph Hf Hc. unfold after. rewrite (final_turn_ok s fe final_output); try done.
  - rewrite Hf. by rewrite bool_decide_eq_true_2.
  - rewrite Hf. by apply bool_decide_eq_false.
Qed.


(** In the example session the file is offered under a name that keeps the
    capital letters and the spaces of the topic. *)
Lemma file_name_keeps_topic_as_is : ~ file_name_normalises_both.
Proof.
  intros Hclaim.
  specialize (Hclaim said_done (rerun_answered "Panel 1: ...")
                "Download as Text File" "Panel 1: ..."
                "Pendleton Act (1883)_a_paragraph_describing_a_scenario.txt" "text/plain"
                (session_reachable _)).
  vm_compute in Hclaim.
  assert (H : String.eqb "Pendleton Act (1883)_a_paragraph_describing_a_scenario.txt"
                         "pendleton_act_(1883)_a_paragraph_describing_a_scenario.txt" = true).
  { apply String.eqb_eq. apply Hclaim. do 8 right. by left. }
  vm_compute in H. discriminate.
Qed.

(** C6, amended.  The execution that generates the final project, and with
    a non-empty answer brings the session to Complete, offers the artifact
    for download under a name made of the topic as it is, an underscore,
    the kind of project lower-cased with every space replaced by an
    underscore, and the extension .txt; that second part has no space and
    no capital letter left, and no other name is offered. *)
Theorem exported_file_name s fe final_output :
  phase_of s = Finalizing -> fired fe <> Click "Start Creating!" ->
  completion fe = Some final_output ->
  In (DownloadButton "Download as Text File" final_output
        (topic_at s fe +:+ "_" +:+ normalised (kind_at s fe) +:+ ".txt") "text/plain")
     (page (fst (run s fe))) /\
  string_forall plain_char (normalised (kind_at s fe)) /\
  (forall label data name mime,
      In (DownloadButton label data name mime) (page (fst (run s fe))) ->
      name = topic_at s fe +:+ "_" +:+ normalised (kind_at s fe) +:+ ".txt") /\
  (final_output <> EmptyString -> fired fe <> Click "Create Another Project" ->
     phase_of (after s fe) = Complete /\ artifact (after s fe) = Some final_output).
Proof.
  intros Hph Hstart Hc. pose proof Hph as (Hs & _ & _)%phase_finalizing.
  unfold after.
  rewrite (final_turn_ok s fe final_output Hph); [|by apply bool_decide_eq_false|done].
  cbn [fst page]. split; [|split; [|split]]; cycle 3.
  { intros Hne%nonempty_text Hreset.
    rewrite bool_decide_eq_false_2 by done. cbn [ss]. split; [|done].
    rewrite phase_of_state, (started_after_selection _ fe Hs). cbn. by rewrite Hne. }
  - rewrite !in_app_iff. right. cbn. auto.
  - apply replace_space_plain, lower_no_capital.
  - intros label data name mime.
    rewrite in_app_iff. intros [Hin | Hin].
    + destruct Hin as [? | [? | Hin]]; try discriminate.
      apply in_map_iff in Hin as (m & ? & _). discriminate.
    + cbn in Hin. destruct Hin as [? | [? | [[= _ _ <- _] | [? | []]]]]; done.
Qed.

Lemma exported_file_name_witness :
  In (DownloadButton "Download as Text File" "Panel 1: ..."
        "Pendleton Act (1883)_a_paragraph_describing_a_scenario.txt" "text/plain")
     (page (fst (run said_done (rerun_answered "Panel 1: ...")))).
Proof.
  refine (proj1 (exported_file_name said_done (rerun_answered "Panel 1: ...")
                   "Panel 1: ..." _ _ _)).
  - vm_compute. reflexivity.
  - discriminate.
  - reflexivity.
Defined.

(** The requests an execution sends: one at most, in chat mode or for the
    final generation. *)
Lemma requests_of_run s fe req :
  reachable s -> In req (requests (fst (run s fe))) ->
  (phase_of s = Gathering /\
   exists text, fired fe = Submit text /\
     req = gathering_request (str (default None (system_prompt s)))
             (transcript s ++ [Message "user" text]))
  \/ (phase_of s = Finalizing /\
      req = final_request (str (default None (system_prompt s))) (transcript s)).
Proof.
  intros Hr. destruct (reachable_consistent _ Hr) as [_ _ Hsp _].
  rewrite run_summary. unfold summary, summary_from, chat_input.
  repeat case_match; cbn; try tauto.
  all: intros [<- | []]; try (exfalso; congruence).
  all: repeat match goal with
         | H : _ && _ = true |- _ => apply andb_true_iff in H as [? ?]
         end.
  all: match goal with
       | H : truthy (default None (system_prompt _)) = true |- _ =>
           pose proof H as Hprompt; apply Hsp in H as [Hact Hkind]
       end.
  all: assert (Hstarted : started _ = true)
         by (unfold started; rewrite Hact, Hkind; exact Hprompt).
  all: simplify_eq.
  all: first
         [ left; split; [by apply phase_gathering | eexists; split; reflexivity]
         | right; split; [apply phase_finalizing; by repeat split | reflexivity] ].
Qed.





Lemma valid_selection_truthy fe :
  valid_selection fe ->
  truthy (selected_act fe) = true /\ truthy (selected_type fe) = true.
Proof.
  intros [Hi Hj]%valid_selection_cases. unfold selected_act, selected_type.
  destruct Hi as [-> | [-> | [-> | ->]]], Hj as [-> | [-> | ->]]; by split.
Qed.

Lemma no_warning_in_history h body : ~ In (Warning body) (map shown h).
Proof. intros (m & Hm & _)%in_map_iff. discriminate. Qed.

(** C9.  With each select box holding one of its options, no execution
    shows the warning of line 98; and when Start Creating! is pressed the
    topic and the kind of project are set in the session state, the
    handler takes its first branch and ends with the rerun. *)
Theorem missing_selection_unreachable s fe :
  valid_selection fe ->
  (forall body, ~ In (Warning body) (page (fst (run s fe)))) /\
  (fired fe = Click "Start Creating!" ->
     snd (run s fe) = Rerun /\
     act (after s fe) = Some (selected_act fe) /\
     project_type (after s fe) = Some (selected_type fe) /\
     truthy (selected_act fe) = true /\ truthy (selected_type fe) = true).
Proof.
  intros Hv. destruct (valid_selection_truthy fe Hv) as [Ha Hp]. split.
  - intros body. rewrite run_summary. unfold summary, summary_from, choose.
    rewrite Ha, Hp. cbv iota. rewrite Ha, Hp. cbn [andb].
    pose proof (no_warning_in_history (default [] (chat_history s)) body) as Hh.
    repeat case_match; cbn [fst page app]; rewrite ?in_app_iff; cbn [In].
    all: intuition discriminate.
  - intros Hf. unfold after. by rewrite (start_turn s fe Hv Hf).
Qed.

Lemma missing_selection_unreachable_witness :
  snd (run empty_session press_start) = Rerun.
Proof.
  assert (Hv : valid_selection press_start) by (vm_compute; lia).
  exact (proj1 (proj2 (missing_selection_unreachable empty_session press_start Hv) eq_refl)).
Defined.

(** C10.  In every reachable session state the transcript holds messages
    of role user or assistant only.  A request sent from such a state is
    made, at that call, of one system message, whose content is the stored
    system prompt (followed, for the final generation, by the closing
    instruction), and of the transcript, which holds no system message. *)
Theorem transcript_has_no_system_message s :
  reachable s ->
  Forall user_or_assistant (transcript s) /\
  (forall fe req,
      In req (requests (fst (run s fe))) ->
      exists sp h,
        default None (system_prompt s) = Some sp /\
        (messages req = Message "system" sp :: h \/
         messages req = Message "system" (sp +:+ final_instruction) :: h) /\
        (h = transcript s \/ exists text, h = transcript s ++ [Message "user" text]) /\
        Forall user_or_assistant h).
Proof.
  intros Hr.
  pose proof (transcript_roles _ (reachable_consistent _ Hr)) as Hroles.
  split; [done |]. intros fe req Hin.
  destruct (requests_of_run s fe req Hr Hin) as [[Hph (text & Hf & ->)] | [Hph ->]].
  - pose proof Hph as [Hs _]%phase_gathering.
    unfold started in Hs. apply andb_true_iff in Hs as [_ Hsp].
    destruct (default None (system_prompt s)) as [sp|] eqn:Hprompt; [|done].
    exists sp, (transcript s ++ [Message "user" text]). repeat split.
    + by left.
    + right. by exists text.
    + apply Forall_app. split; [done |]. apply Forall_singleton. by left.
  - pose proof Hph as (Hs & _ & _)%phase_finalizing.
    unfold started in Hs. apply andb_true_iff in Hs as [_ Hsp].
    destruct (default None (system_prompt s)) as [sp|] eqn:Hprompt; [|done].
    exists sp, (transcript s). repeat split; try done.
    + by right.
    + by left.
Qed.

Lemma transcript_has_no_system_message_witness :
  Forall user_or_assistant (transcript said_done).
Proof.
  exact (proj1 (transcript_has_no_system_message said_done (session_reachable _))).
Defined.

(** * Further properties of the script *)

(** ** Lines 34-45: the defaults *)

(** X1.  Lines 34-45 leave all six keys present: a key that is there keeps
    its value, a missing one gets its default, nothing is shown or sent;
    run again on the result they change nothing, and the phase of the
    session is the same before and after. *)
Theorem init_fills_missing_keys s p r :
  exists s',
    init_session_state (World s p r) = (World s' p r, Return tt) /\
    (act s' = Some (default None (act s)) /\
     project_type s' = Some (default None (project_type s)) /\
     chat_history s' = Some (default [] (chat_history s)) /\
     system_prompt s' = Some (default None (system_prompt s)) /\
     gathering_info s' = Some (default true (gathering_info s)) /\
     final_project s' = Some (default None (final_project s))) /\
    init_session_state (World s' p r) = (World s' p r, Return tt) /\
    phase_of s' = phase_of s.
Proof.
  exists (with_defaults s). rewrite !init_session_state_spec.
  destruct s as [[a|] [pt|] [h|] [sp|] [g|] [f|]]; repeat split.
Qed.

(** ** How an execution ends *)


(** The closed form of an execution whose select boxes hold options. *)
Lemma summary_valid s fe :
  valid_selection fe ->
  run s fe =
    summary_from (selected_act fe) (selected_type fe) (transcript s)
      (default None (system_prompt s)) (default true (gathering_info s))
      (artifact s) fe.
Proof.
  intros [Ha Hp]%valid_selection_truthy.
  rewrite run_summary. unfold summary, choose. by rewrite Ha, Hp.
Qed.



(** X4.  An execution calls [st.rerun()] only when a widget has started
    it: Start Creating!, a chat text with a completion word that the
    service has answered, or Create Another Project after an answered
    final generation.  The execution that a rerun starts has no widget, so
    it does not rerun again. *)
Theorem rerun_needs_widget s fe :
  snd (run s fe) = Rerun ->
  fired fe <> NoTrigger /\
  (fired fe = Click "Start Creating!"
   \/ (exists text, fired fe = Submit text /\ says_done text = true
                    /\ is_Some (completion fe))
   \/ (fired fe = Click "Create Another Project" /\ is_Some (completion fe))).
Proof.
  rewrite run_summary. unfold summary, summary_from, chat_input.
  repeat case_match; cbn; try discriminate; intros _; simplify_eq.
  all: repeat match goal with
         | H : bool_decide _ = true |- _ => apply bool_decide_eq_true_1 in H
         end.
  all: split; [congruence |].
  all: try (by left).
  all: try (right; left; eexists; by repeat split).
  all: right; right; split; [congruence | by eexists].
Qed.

Lemma rerun_needs_widget_witness :
  fired (say "I choose A, done" "That's a cool idea!") <> NoTrigger.
Proof.
  refine (proj1 (rerun_needs_widget one_answer_given
                   (say "I choose A, done" "That's a cool idea!") _)).
  vm_compute. reflexivity.
Defined.

(** ** Idle sessions *)

(** A reachable session without a system prompt has an empty transcript, no
    artifact, and the gathering flag up. *)
Lemma no_prompt_blank s :
  reachable s ->
  truthy (default None (system_prompt s)) = false ->
  transcript s = [] /\ artifact s = None /\ default true (gathering_info s) = true.
Proof.
  induction 1 as [|s fe _ IH]; [done |].
  rewrite after_summary. unfold summary, summary_from, transcript, artifact in *.
  repeat case_match; cbn; intros Hsp; try by auto.
  all: repeat match goal with
         | H : _ && _ = true |- _ => apply andb_true_iff in H as [? ?]
         end.
  all: congruence.
Qed.

Lemma idle_no_prompt s :
  reachable s ->
  phase_of s = Idle <-> truthy (default None (system_prompt s)) = false.
Proof.
  intros Hr.
  pose proof (prompt_after_selection _ (reachable_consistent _ Hr)) as Hsel.
  rewrite phase_of_started. unfold started.
  destruct (truthy (default None (system_prompt s))) eqn:Hsp.
  - destruct (Hsel eq_refl) as [-> ->]. cbn.
    repeat case_match; split; congruence.
  - rewrite andb_false_r. by split.
Qed.

(** X7.  In every reachable session state the phase is Idle exactly when
    no system prompt is stored; an Idle session has an empty transcript and
    no final artifact. *)
Theorem idle_iff_no_prompt s :
  reachable s ->
  (phase_of s = Idle <-> truthy (default None (system_prompt s)) = false) /\
  (phase_of s = Idle -> transcript s = [] /\ artifact s = None).
Proof.
  intros Hr. split; [by apply idle_no_prompt |].
  intros Hsp%idle_no_prompt; [|done].
  destruct (no_prompt_blank s Hr Hsp) as (? & ? & _). by split.
Qed.

Lemma idle_iff_no_prompt_witness :
  transcript (after said_done press_create_another) = [] /\
  artifact (after said_done press_create_another) = None.
Proof.
  refine (proj2 (idle_iff_no_prompt (after said_done press_create_another) _) _).
  - apply reachable_after, session_reachable.
  - vm_compute. reflexivity.
Defined.

(** X2.  In an Idle session, an execution in which Start Creating! is not
    pressed shows the button and the hint of line 167, sends no request,
    ends normally and leaves the session Idle, with an empty transcript. *)
Theorem idle_execution s fe :
  reachable s -> phase_of s = Idle -> fired fe <> Click "Start Creating!" ->
  snd (run s fe) = Return tt /\
  page (fst (run s fe)) = [Button "Start Creating!"; Info] /\
  requests (fst (run s fe)) = [] /\
  phase_of (after s fe) = Idle /\
  transcript (after s fe) = [].
Proof.
  intros Hr Hidle Hf.
  apply (idle_no_prompt s Hr) in Hidle as Hsp.
  destruct (no_prompt_blank s Hr Hsp) as (Hh & _ & _).
  unfold after. rewrite run_summary. unfold summary, summary_from.
  rewrite bool_decide_eq_false_2 by done. rewrite Hsp, andb_false_r.
  cbn [fst snd ss page requests app]. repeat split; [|done].
  rewrite phase_of_state. by rewrite Hsp, andb_false_r.
Qed.

Lemma idle_execution_witness :
  page (fst (run empty_session open_page)) = [Button "Start Creating!"; Info].
Proof.
  refine (proj1 (proj2 (idle_execution empty_session open_page
                          reachable_empty _ _))).
  - reflexivity.
  - discriminate.
Defined.

(** ** Requests *)

(** X5.  An execution from a reachable session state sends one request at
    most, and sends one only in chat mode on a non-empty text or for the
    final generation; never when Start Creating! is pressed, and never in
    an Idle or a Complete session. *)
Theorem one_request_at_most s fe :
  reachable s ->
  length (requests (fst (run s fe))) <= 1 /\
  (requests (fst (run s fe)) <> [] ->
     fired fe <> Click "Start Creating!" /\
     (phase_of s = Gathering /\
        (exists text, fired fe = Submit text /\ text <> EmptyString)
      \/ phase_of s = Finalizing)).
Proof.
  intros Hr. split.
  - rewrite run_summary. unfold summary, summary_from.
    repeat case_match; cbn; lia.
  - intros Hne. split.
    + intros Hf. apply Hne. rewrite run_summary. unfold summary, summary_from.
      rewrite Hf. cbn. by repeat case_match.
    + destruct (requests (fst (run s fe))) as [|req reqs] eqn:Hreq; [done |].
      destruct (requests_of_run s fe req Hr) as [[Hph (text & Hf & _)] | [Hph _]].
      * rewrite Hreq. by left.
      * left. split; [done |]. exists text. split; [done |]. intros ->.
        rewrite gathering_idle_turn in Hreq; [done | done | |].
        -- by eapply not_start_click.
        -- intros text' Hf'. rewrite Hf in Hf'. by injection Hf' as <-.
      * by right.
Qed.

Lemma one_request_at_most_witness :
  length (requests (fst (run project_generated press_create_another))) <= 1.
Proof.
  exact (proj1 (one_request_at_most project_generated press_create_another
                  (session_reachable _))).
Defined.

(** ** The selection during a session *)

(** X6.  Lines 58-65 run on every execution: whenever neither Start
    Creating! nor Create Another Project is pressed, the topic and the kind
    of project of the session become what the select boxes hold, also in
    the middle of a conversation, while the system prompt stays the one
    built at the start. *)
Theorem selection_follows_select_boxes s fe :
  valid_selection fe ->
  fired fe <> Click "Start Creating!" -> fired fe <> Click "Create Another Project" ->
  act (after s fe) = Some (selected_act fe) /\
  project_type (after s fe) = Some (selected_type fe) /\
  system_prompt (after s fe) = Some (default None (system_prompt s)).
Proof.
  intros Hv Hstart Hreset. unfold after. rewrite (summary_valid s fe Hv).
  unfold summary_from. rewrite !bool_decide_eq_false_2 by done.
  by repeat case_match.
Qed.

Lemma selection_follows_select_boxes_witness :
  act (after one_answer_given (hatch_skit NoTrigger None)) = Some (Some "Hatch Act (1939)") /\
  system_prompt (after one_answer_given (hatch_skit NoTrigger None))
  = system_prompt one_answer_given.
Proof.
  assert (Hv : valid_selection (hatch_skit NoTrigger None)) by (vm_compute; lia).
  destruct (selection_follows_select_boxes one_answer_given (hatch_skit NoTrigger None) Hv)
    as (Ha & _ & Hsp); [discriminate | discriminate |].
  split; [exact Ha | exact Hsp].
Defined.

(** ** Turns of the conversation, put together *)

(** X8.  A chat turn on which the service fails, followed by a turn that it
    answers: both user messages are in the transcript, the first one
    without a reply, and the second request carries both. *)
Theorem retry_keeps_both_user_messages s fe1 fe2 text1 text2 ai_reply :
  phase_of s = Gathering ->
  fired fe1 = Submit text1 -> text1 <> EmptyString -> completion fe1 = None ->
  fired fe2 = Submit text2 -> text2 <> EmptyString -> completion fe2 = Some ai_reply ->
  transcript (after (after s fe1) fe2)
  = transcript s ++ [Message "user" text1; Message "user" text2;
                     Message "assistant" ai_reply] /\
  requests (fst (run (after s fe1) fe2))
  = [gathering_request (str (default None (system_prompt s)))
       (transcript s ++ [Message "user" text1; Message "user" text2])].
Proof.
  intros Hph Hf1 Ht1%nonempty_text Hc1 Hf2 Ht2%nonempty_text Hc2.
  pose proof Hph as [Hs _]%phase_gathering.
  unfold after at 2 3. rewrite (gathering_turn_fail s fe1 text1 Hph Hf1 Ht1 Hc1).
  cbn [fst ss].
  match goal with |- context [after ?s1 fe2] => set (s1' := s1) end.
  assert (Hph' : phase_of s1' = Gathering).
  { unfold s1'. by rewrite phase_of_state, (started_after_selection _ fe1 Hs). }
  unfold after. rewrite (gathering_turn_ok s1' fe2 text2 ai_reply Hph' Hf2 Ht2 Hc2).
  cbn [fst ss requests]. unfold s1', transcript, artifact. cbn.
  by rewrite <- !app_assoc.
Qed.

Lemma retry_keeps_both_user_messages_witness :
  transcript (after (after just_started (say_unanswered "A")) (say "B" "Great choice!"))
  = [Message "user" "A"; Message "user" "B"; Message "assistant" "Great choice!"].
Proof.
  refine (proj1 (retry_keeps_both_user_messages just_started (say_unanswered "A")
                   (say "B" "Great choice!") "A" "B" "Great choice!" _ _ _ _ _ _ _)).
  - vm_compute. reflexivity.
  - reflexivity.
  - discriminate.
  - reflexivity.
  - reflexivity.
  - discriminate.
  - reflexivity.
Defined.

Lemma dialogue_after s fe :
  dialogue (transcript s) -> dialogue (transcript (after s fe)).
Proof.
  intros Hd. rewrite after_summary. unfold summary, summary_from, transcript in *.
  repeat case_match; cbn; try done.
  all: try rewrite <- app_assoc.
  all: by constructor.
Qed.

Lemma dialogue_head h :
  dialogue h -> match h with [] => True | m :: _ => role m = "user" end.
Proof.
  induction 1 as [|h text _ IH|h text ai_reply _ IH]; [done | |];
    by destruct h.
Qed.

Lemma dialogue_reply_follows_user h i m :
  dialogue h -> h !! S i = Some m -> role m = "assistant" ->
  exists text, h !! i = Some (Message "user" text).
Proof.
  intros Hd. revert i m.
  induction Hd as [|h text _ IH|h text ai_reply _ IH]; intros i m Hi Hm; [done | |].
  - destruct (decide (S i < length h)) as [Hlt | Hge].
    + rewrite lookup_app_l in Hi by done. rewrite lookup_app_l by lia. eauto.
    + rewrite lookup_app_r in Hi by lia.
      destruct (S i - length h) as [|[|k]] eqn:Hk; simplify_eq/=.
  - destruct (decide (S i < length h)) as [Hlt | Hge].
    + rewrite lookup_app_l in Hi by done. rewrite lookup_app_l by lia. eauto.
    + rewrite lookup_app_r in Hi by lia.
      destruct (S i - length h) as [|[|k]] eqn:Hk; simplify_eq/=.
      exists text. rewrite lookup_app_r by lia.
      by replace (i - length h) with 0 by lia.
Qed.

(** X9.  In every reachable session state the transcript is a sequence of
    turns, each a user message followed by at most one assistant reply: a
    non-empty transcript starts with a user message, and an assistant
    message always comes right after a user message. *)
Theorem transcript_is_dialogue s :
  reachable s ->
  dialogue (transcript s) /\
  match transcript s with [] => True | m :: _ => role m = "user" end /\
  (forall i m,
      transcript s !! S i = Some m -> role m = "assistant" ->
      exists text, transcript s !! i = Some (Message "user" text)).
Proof.
  intros Hr.
  assert (Hd : dialogue (transcript s)).
  { induction Hr as [|s fe _ IH]; [constructor | by apply dialogue_after]. }
  split; [done |]. split; [by apply dialogue_head |].
  intros i m. by apply dialogue_reply_follows_user.
Qed.

Lemma transcript_is_dialogue_witness : dialogue (transcript said_done).
Proof.
  exact (proj1 (transcript_is_dialogue said_done (session_reachable _))).
Defined.

(** ** Finalizing and Complete *)



(** X11.  Once the session is Complete, an execution in which Start
    Creating! is not pressed shows the button, the header and the chat
    history and nothing else (neither the artifact nor a download button),
    sends no request and leaves transcript, artifact and phase as they
    were: the artifact is on the page only in the execution that has
    generated it. *)
Theorem complete_shows_history_only s fe :
  phase_of s = Complete -> fired fe <> Click "Start Creating!" ->
  snd (run s fe) = Return tt /\
  requests (fst (run s fe)) = [] /\
  page (fst (run s fe))
  = Button "Start Creating!"
    :: Header ("Creating a " +:+ PyStr.lower (kind_at s fe) +:+ " about the " +:+ topic_at s fe)
    :: map shown (transcript s) /\
  (forall body, ~ In (Markdown body) (page (fst (run s fe)))) /\
  (forall label data name mime,
      ~ In (DownloadButton label data name mime) (page (fst (run s fe)))) /\
  transcript (after s fe) = transcript s /\
  artifact (after s fe) = artifact s /\
  phase_of (after s fe) = Complete.
Proof.
  intros Hph Hstart. pose proof Hph as (Hs & _ & Ha)%phase_complete.
  unfold after. rewrite (complete_turn s fe Hph) by (by apply bool_decide_eq_false).
  cbn [fst snd ss page requests]. repeat split.
  - intros body [? | [? | (m & ? & _)%in_map_iff]]; discriminate.
  - intros label data name mime [? | [? | (m & ? & _)%in_map_iff]]; discriminate.
  - by rewrite phase_of_state, (started_after_selection _ fe Hs), Ha.
Qed.

Lemma complete_shows_history_only_witness :
  requests (fst (run project_generated (pendleton_paragraph (Click "Download as Text File") None)))
  = [].
Proof.
  refine (proj1 (proj2 (complete_shows_history_only project_generated
            (pendleton_paragraph (Click "Download as Text File") None) _ _))).
  - vm_compute. reflexivity.
  - discriminate.
Defined.

(** X12.  From Gathering to Complete in two executions: the chat turn with
    a completion word, answered, ends with [st.rerun()]; the execution the
    rerun starts sends the final request, made of the system prompt with
    the closing instruction and of the whole transcript, the last turn
    included, and with a non-empty answer the session is Complete, its
    artifact is that answer, and the answer is not added to the
    transcript. *)
Theorem done_then_rerun_completes s fe1 fe2 text ai_reply final_output :
  reachable s -> phase_of s = Gathering ->
  fired fe1 = Submit text -> mentions_completion text -> completion fe1 = Some ai_reply ->
  fired fe2 = NoTrigger -> completion fe2 = Some final_output ->
  final_output <> EmptyString ->
  snd (run s fe1) = Rerun /\
  requests (fst (run (after s fe1) fe2))
  = [final_request (str (default None (system_prompt s)))
       (transcript s ++ [Message "user" text; Message "assistant" ai_reply])] /\
  phase_of (after (after s fe1) fe2) = Complete /\
  artifact (after (after s fe1) fe2) = Some final_output /\
  transcript (after (after s fe1) fe2)
  = transcript s ++ [Message "user" text; Message "assistant" ai_reply].
Proof.
  intros Hr Hph Hf1 Hd%says_done_mentions Hc1 Hf2 Hc2 Hne%nonempty_text.
  pose proof Hph as [Hs Hg]%phase_gathering.
  pose proof (gathering_without_artifact _ (reachable_consistent _ Hr) Hg) as Hart.
  pose proof (says_done_nonempty _ Hd) as Ht.
  pose proof (gathering_turn_ok s fe1 text ai_reply Hph Hf1 Ht Hc1) as H1.
  rewrite Hd in H1. cbn [negb] in H1.
  remember (after s fe1) as s1 eqn:Hs1.
  unfold after in Hs1. rewrite H1 in Hs1. cbn [fst ss] in Hs1.
  rewrite H1. cbn [snd]. split; [done |].
  assert (Hph' : phase_of s1 = Finalizing).
  { rewrite Hs1. by rewrite phase_of_state, (started_after_selection _ fe1 Hs), Hart. }
  pose proof Hph' as (Hs' & _ & _)%phase_finalizing.
  assert (Hstart : bool_decide (fired fe2 = Click "Start Creating!") = false).
  { rewrite Hf2. by apply bool_decide_eq_false. }
  unfold after. rewrite (final_turn_ok s1 fe2 final_output Hph' Hstart Hc2).
  rewrite Hf2. rewrite bool_decide_eq_false_2 by done.
  cbn [fst ss requests].
  assert (Ht1 : transcript s1
                = transcript s ++ [Message "user" text; Message "assistant" ai_reply]).
  { rewrite Hs1. unfold transcript. cbn. by rewrite <- app_assoc. }
  assert (Hsp1 : default None (system_prompt s1) = default None (system_prompt s)).
  { by rewrite Hs1. }
  rewrite Ht1, Hsp1. repeat split.
  rewrite phase_of_state, <- Hsp1, (started_after_selection s1 fe2 Hs'). cbn.
  by rewrite Hne.
Qed.

Lemma done_then_rerun_completes_witness :
  phase_of (after (after one_answer_given (say "I choose A, done" "That's a cool idea!"))
                  (rerun_answered "Panel 1: ..."))
  = Complete.
Proof.
  refine (proj1 (proj2 (proj2 (done_then_rerun_completes one_answer_given
            (say "I choose A, done" "That's a cool idea!") (rerun_answered "Panel 1: ...")
            "I choose A, done" "That's a cool idea!" "Panel 1: ..." _ _ _ _ _ _ _ _)))).
  - apply session_reachable.
  - vm_compute. reflexivity.
  - reflexivity.
  - apply says_done_mentions. vm_compute. reflexivity.
  - reflexivity.
  - reflexivity.
  - reflexivity.
  - discriminate.
Defined.
